(** * web3/_utils/module_testing/module_testing_utils.py

    A shallow embedding of the test helpers of web3.py's module testing
    utilities, and the properties their specification states about them:

    - [assert_contains_log], the log-record assertion helper;
    - [mock_offchain_lookup_request_response] and its asynchronous twin,
      whose closures [_mock_specific_request] replace the transport's
      request method;
    - [WebSocketMessageStreamMock], the replaying message stream.

    Python values are embedded as the inductive type [pyval], exceptions as
    [exn], dictionaries as stdpp's [gmap], tuples and deques as lists.
    Code that can raise lives in the monad [io], whose [Do] nodes are the
    calls made to collaborators that are outside this module. *)

From Stdlib Require Import ZArith Ascii String.
From Stdlib.Strings Require Import Byte.
From stdpp Require Import base decidable option list gmap strings fin_maps.

Local Open Scope string_scope.
Local Open Scope list_scope.

(** ** Python values *)

(** [bytes] objects. *)
Abbreviation bytes := (list Byte.byte).

#[global] Instance byte_eq_dec : EqDecision Byte.byte := Byte.byte_eq_dec.

(** Exceptions, compared by class and arguments. [OtherError] stands for the
    exception classes of collaborators that this module never raises
    itself. [UserException] is an instance of a class a test defines: such a
    class may derive from [StopIteration] or [StopAsyncIteration], and its
    [__bool__] or [__len__] may make its instances false. *)
Inductive exn : Type :=
| AssertionError
| KeyError (key : string)
| IndexError
| TypeError
| ValueError
| StopAsyncIteration
| Exception (msg : string)
| OtherError (name : string)
| StopIteration
| RuntimeError (msg : string)
| UserException (class_name : string)
    (derives_StopIteration derives_StopAsyncIteration truth : bool).

#[global] Instance exn_eq_dec : EqDecision exn.
Proof. solve_decision. Defined.

(** The truth value of an exception instance in a condition: true, unless
    its class says otherwise. *)
Definition exn_truth (e : exn) : bool :=
  match e with
  | UserException _ _ _ truth => truth
  | _ => true
  end.

(** [isinstance(e, StopIteration)] and [isinstance(e, StopAsyncIteration)] *)
Definition isinstance_StopIteration (e : exn) : bool :=
  match e with
  | StopIteration => true
  | UserException _ derives _ _ => derives
  | _ => false
  end.

Definition isinstance_StopAsyncIteration (e : exn) : bool :=
  match e with
  | StopAsyncIteration => true
  | UserException _ _ derives _ => derives
  | _ => false
  end.

(** An exception that leaves the body of an [async def]: a [StopIteration]
    comes out of the coroutine as a [RuntimeError], anything else as
    itself. *)
Definition out_of_coroutine (e : exn) : exn :=
  if isinstance_StopIteration e
  then RuntimeError "coroutine raised StopIteration"
  else e.


(** aiohttp's [ClientTimeout], an attrs class: two instances are equal when
    all their fields are. *)
Record ClientTimeout : Type := {
  total : option Z;
  connect : option Z;
  sock_read : option Z;
  sock_connect : option Z;
  ceil_threshold : Z
}.

#[global] Instance ClientTimeout_eq_dec : EqDecision ClientTimeout.
Proof. solve_decision. Defined.

(** [ClientTimeout(total)]: the first positional field, the others at their
    defaults. *)
Definition ClientTimeout_new (total : Z) : ClientTimeout :=
  {| total := Some total; connect := None; sock_read := None;
     sock_connect := None; ceil_threshold := 5 |}.

(** The values the helpers handle. [VDict] is a dictionary from [str] to
    [Optional[str]], the shape of a POST body; [VObject] is any other object,
    known by its identity only. *)
Inductive pyval : Type :=
| VNone
| VBool (b : bool)
| VInt (n : Z)
| VStr (s : string)
| VBytes (b : bytes)
| VDict (d : gmap string (option string))
| VClientTimeout (t : ClientTimeout)
| VObject (id : positive).

#[global] Instance pyval_eq_dec : EqDecision pyval.
Proof. solve_decision. Defined.

(** [bool] is a subclass of [int]: [True == 1] and [False == 0]. *)
Definition as_number (v : pyval) : option Z :=
  match v with
  | VBool b => Some (if b then 1 else 0)%Z
  | VInt n => Some n
  | _ => None
  end.

(** Python's [==] on these values. *)
Definition py_eq (a b : pyval) : bool :=
  match as_number a, as_number b with
  | Some x, Some y => bool_decide (x = y)
  | None, None => bool_decide (a = b)
  | _, _ => false
  end.

(** A parameter annotated [str = None]. *)
Definition of_optional_str (o : option string) : pyval :=
  match o with
  | None => VNone
  | Some s => VStr s
  end.

(** [str.upper] and [str.lower] on ASCII text, which is what an HTTP method
    name is. *)
Definition upper_ascii (c : ascii) : ascii :=
  let n := nat_of_ascii c in
  if (97 <=? n)%nat && (n <=? 122)%nat then ascii_of_nat (n - 32) else c.

Definition lower_ascii (c : ascii) : ascii :=
  let n := nat_of_ascii c in
  if (65 <=? n)%nat && (n <=? 90)%nat then ascii_of_nat (n + 32) else c.

Fixpoint upper (s : string) : string :=
  match s with
  | EmptyString => EmptyString
  | String c s' => String (upper_ascii c) (upper s')
  end.

Fixpoint lower (s : string) : string :=
  match s with
  | EmptyString => EmptyString
  | String c s' => String (lower_ascii c) (lower s')
  end.

(** ** Code that raises and calls out *)

(** A computation returns, raises, or makes a call [c] of the interface [E]
    to a collaborator and continues with its answer. Coroutines are
    computations too: [await] is sequencing. *)
Inductive io (E : Type -> Type) (A : Type) : Type :=
| Ret (a : A)
| Raise (e : exn)
| Do {X : Type} (c : E X) (k : X -> io E A).

Arguments Ret {E A} a.
Arguments Raise {E A} e.
Arguments Do {E A X} c k.

Fixpoint io_bind {E : Type -> Type} {A B : Type}
    (f : A -> io E B) (m : io E A) : io E B :=
  match m with
  | Ret a => f a
  | Raise e => Raise e
  | Do c k => Do c (fun x => io_bind f (k x))
  end.

#[global] Instance io_mret {E} : MRet (io E) := fun A a => Ret a.
#[global] Instance io_mbind {E} : MBind (io E) := fun A B f m => io_bind f m.

(** The call [c] on its own. *)
Definition perform {E : Type -> Type} {X : Type} (c : E X) : io E X := Do c Ret.

(** A collaborator answers a call with a value or an exception, and may
    change the world [W] it lives in. *)
Definition handler (E : Type -> Type) (W : Type) : Type :=
  forall X : Type, E X -> W -> (exn + X) * W.

(** Running a computation against a collaborator: the outcome, the world
    afterwards and the calls that were made, in order. An exception raised
    by a call propagates. *)
Fixpoint run {E : Type -> Type} {W A : Type}
    (h : handler E W) (m : io E A) (w : W) : (exn + A) * W * list (sigT E) :=
  match m with
  | Ret a => (inr a, w, [])
  | Raise e => (inl e, w, [])
  | Do c k =>
      match h _ c w with
      | (inl e, w') => (inl e, w', [existT _ c])
      | (inr x, w') =>
          let '(r, w'', log) := run h (k x) w' in
          (r, w'', existT _ c :: log)
      end
  end.

(** [seq[i]] on a tuple or list. *)
Definition getitem_seq {E : Type -> Type} {V : Type}
    (l : list V) (i : nat) : io E V :=
  match l !! i with
  | Some v => Ret v
  | None => Raise IndexError
  end.

(** [d[key]] on a dictionary. *)
Definition getitem {E : Type -> Type} {V : Type}
    (d : gmap string V) (key : string) : io E V :=
  match d !! key with
  | Some v => Ret v
  | None => Raise (KeyError key)
  end.

(** The [assert] statement. *)
Definition assert_ {E : Type -> Type} (b : bool) : io E unit :=
  if b then Ret tt else Raise AssertionError.

(** The outcome of a library function that computes a value or raises. *)
Definition of_result {E : Type -> Type} {A : Type} (r : exn + A) : io E A :=
  match r with
  | inl e => Raise e
  | inr a => Ret a
  end.


(** ** The log assertion *)

Section LogAssertion.

(** eth_utils' [is_same_address] and hexbytes' [HexBytes] are libraries of
    their own: each computes a value or raises. *)
Variable is_same_address : pyval -> pyval -> exn + bool.
Variable HexBytes : pyval -> exn + bytes.

(** A [LogReceipt] and a [BlockData] are dictionaries at run time. *)
Definition assert_contains_log {E : Type -> Type}
    (result : list (gmap string pyval))
    (block_with_txn_with_log : gmap string pyval)
    (emitter_contract_address : pyval)
    (txn_hash_with_log : pyval) : io E unit :=
  assert_ (bool_decide (length result = 1%nat));;
  log_entry ← getitem_seq result 0;
  blockNumber ← getitem log_entry "blockNumber";
  number ← getitem block_with_txn_with_log "number";
  assert_ (py_eq blockNumber number);;
  blockHash ← getitem log_entry "blockHash";
  hash ← getitem block_with_txn_with_log "hash";
  assert_ (py_eq blockHash hash);;
  logIndex ← getitem log_entry "logIndex";
  assert_ (py_eq logIndex (VInt 0));;
  address ← getitem log_entry "address";
  same ← of_result (is_same_address address emitter_contract_address);
  assert_ same;;
  transactionIndex ← getitem log_entry "transactionIndex";
  assert_ (py_eq transactionIndex (VInt 0));;
  transactionHash ← getitem log_entry "transactionHash";
  expected ← of_result (HexBytes txn_hash_with_log);
  assert_ (py_eq transactionHash (VBytes expected)).

End LogAssertion.

(** ** The request interceptors *)

(** The arguments of [mock_offchain_lookup_request_response] and of
    [async_mock_offchain_lookup_request_response], which the classes and
    closures they define capture. *)
Record rule : Type := {
  http_method : string;
  mocked_request_url : option string;
  mocked_status_code : Z;
  mocked_json_data : string;
  json_data_field : string;
  sender : option string;
  calldata : option string
}.

(** The defaults of the keyword arguments. *)
Definition defaults : rule :=
  {| http_method := "GET";
     mocked_request_url := None;
     mocked_status_code := 200;
     mocked_json_data := "0x";
     json_data_field := "data";
     sender := None;
     calldata := None |}.

(** [{"data": calldata, "sender": sender}] *)
Definition expected_data (r : rule) : pyval :=
  VDict (<["sender" := sender r]> (<["data" := calldata r]> ∅)).

Module mock_offchain_lookup_request_response.

Module MockedResponse.

(** An instance of the class that this call of the enclosing function
    defined. *)
Record t : Type := new { env : rule }.

Definition status_code (self : t) : Z := mocked_status_code (env self).

Definition json (self : t) : gmap string string :=
  <[json_data_field (env self) := mocked_json_data (env self)]> ∅.

Definition raise_for_status {E : Type -> Type} (self : t) : io E unit :=
  Raise (Exception "called raise_for_status()").

End MockedResponse.

Section Transport.

(** requests' [Session] and [Response]. *)
Context {Session Response : Type}.

(** The real-session path: [cache_and_return_session(endpoint_uri)] of
    web3._utils.request, and [session.request(method=..., url=..., **kwargs)]
    with the two keywords written at the call and the mapping that is
    unpacked after them. Binding the arguments is part of the call. *)
Inductive call : Type -> Type :=
| cache_and_return_session (endpoint_uri : pyval) : call Session
| request (session : Session) (method : string) (url : pyval)
    (kwargs : gmap string pyval) : call Response.

Definition _mock_specific_request (r : rule)
    (args : list pyval) (kwargs : gmap string pyval)
    : io call (Response + MockedResponse.t) :=
  url_from_args ← getitem_seq args 1;
  if py_eq url_from_args (of_optional_str (mocked_request_url r)) then
    timeout ← getitem kwargs "timeout";
    assert_ (py_eq timeout (VInt 10));;
    (if bool_decide (upper (http_method r) = "POST") then
       data ← getitem kwargs "data";
       assert_ (py_eq data (expected_data r))
     else mret tt);;
    mret (inr (MockedResponse.new r))
  else
    session ← perform (cache_and_return_session url_from_args);
    response ← perform (request session (upper (http_method r)) url_from_args kwargs);
    mret (inl response).

(** [monkeypatch.setattr]: the attribute that is replaced, and by what. *)
Definition install (r : rule)
    : string * (list pyval -> gmap string pyval -> io call (Response + MockedResponse.t)) :=
  ("requests.Session." +:+ lower (http_method r), _mock_specific_request r).

End Transport.

End mock_offchain_lookup_request_response.

Module async_mock_offchain_lookup_request_response.

Module AsyncMockedResponse.

Record t : Type := new { env : rule }.

Definition status (self : t) : Z := mocked_status_code (env self).

(** [await response]: the generator yields once and returns the object. *)
Definition __await__ {E : Type -> Type} (self : t) : io E t := Ret self.

Definition json {E : Type -> Type} (self : t) : io E (gmap string string) :=
  mret (<[json_data_field (env self) := mocked_json_data (env self)]> ∅).

Definition raise_for_status {E : Type -> Type} (self : t) : io E unit :=
  Raise (Exception "called raise_for_status()").

End AsyncMockedResponse.

Section Transport.

(** aiohttp's [ClientSession] and [ClientResponse]. *)
Context {ClientSession ClientResponse : Type}.

(** [await async_cache_and_return_session(endpoint_uri)] and
    [await session.request(method=..., url=..., **kwargs)]. *)
Inductive call : Type -> Type :=
| async_cache_and_return_session (endpoint_uri : pyval) : call ClientSession
| request (session : ClientSession) (method : string) (url : pyval)
    (kwargs : gmap string pyval) : call ClientResponse.

Definition _mock_specific_request (r : rule)
    (args : list pyval) (kwargs : gmap string pyval)
    : io call (ClientResponse + AsyncMockedResponse.t) :=
  url_from_args ← getitem_seq args 1;
  if py_eq url_from_args (of_optional_str (mocked_request_url r)) then
    timeout ← getitem kwargs "timeout";
    assert_ (py_eq timeout (VClientTimeout (ClientTimeout_new 10)));;
    (if bool_decide (upper (http_method r) = "post") then
       data ← getitem kwargs "data";
       assert_ (py_eq data (expected_data r))
     else mret tt);;
    mret (inr (AsyncMockedResponse.new r))
  else
    session ← perform (async_cache_and_return_session url_from_args);
    response ← perform (request session (upper (http_method r)) url_from_args kwargs);
    mret (inl response).

Definition install (r : rule)
    : string * (list pyval -> gmap string pyval -> io call (ClientResponse + AsyncMockedResponse.t)) :=
  ("aiohttp.ClientSession." +:+ lower (http_method r), _mock_specific_request r).

End Transport.

End async_mock_offchain_lookup_request_response.

Module Sync := mock_offchain_lookup_request_response.
Module Async := async_mock_offchain_lookup_request_response.

(** ** The message stream double *)

Module WebSocketMessageStreamMock.

(** The instance attributes. [closed] is the class attribute, [False]
    unless a test assigns it; [messages] is the deque, head first. *)
Record t : Type := mk {
  closed : bool;
  messages : list bytes;
  raise_exception : option exn
}.

(** Truth value of the [messages] argument of the constructor: [None] and
    the empty collection are false. *)
Definition truthy (messages : option (list bytes)) : bool :=
  match messages with
  | None => false
  | Some l => negb (Nat.eqb (length l) 0)
  end.

(** [deque(messages) if messages else deque()] *)
Definition __init__ (messages : option (list bytes))
    (raise_exception : option exn) : t :=
  {| closed := false;
     messages := if truthy messages then default [] messages else [];
     raise_exception := raise_exception |}.

(** [deque.popleft], which raises [IndexError] on the empty deque. *)
Definition popleft (d : list bytes) : exn + (bytes * list bytes) :=
  match d with
  | [] => inl IndexError
  | m :: rest => inr (m, rest)
  end.

(** Truth value of [self.raise_exception]: [None] is false, an exception
    instance has the truth value of its class. *)
Definition failure_set (self : t) : bool :=
  match raise_exception self with
  | None => false
  | Some e => exn_truth e
  end.

(** The body of [__anext__]. [raise None] is a [TypeError]. *)
Definition __anext__body (self : t) : (exn + bytes) * t :=
  if failure_set self then
    match raise_exception self with
    | Some e => (inl e, self)
    | None => (inl TypeError, self)
    end
  else if Nat.eqb (length (messages self)) 0 then (inl StopAsyncIteration, self)
  else
    match popleft (messages self) with
    | inl e => (inl e, self)
    | inr (m, rest) =>
        (inr m, {| closed := closed self;
                   messages := rest;
                   raise_exception := raise_exception self |})
    end.

(** One [await stream.__anext__()]: the outcome, a message or the exception
    that comes out of the coroutine, and the object afterwards. *)
Definition __anext__ (self : t) : (exn + bytes) * t :=
  match __anext__body self with
  | (inl e, self') => (inl (out_of_coroutine e), self')
  | (inr m, self') => (inr m, self')
  end.

(** [__aiter__] returns the object itself. *)
Definition __aiter__ (self : t) : t := self.

(** [send] and [close] do nothing. *)
Definition send (self : t) (data : bytes) : (exn + unit) * t := (inr tt, self).
Definition close (self : t) : (exn + unit) * t := (inr tt, self).

(** [n] successive calls of [__anext__] on the same object, each outcome
    recorded whether it is a message or an exception. *)
Fixpoint consume (n : nat) (self : t) : list (exn + bytes) * t :=
  match n with
  | O => ([], self)
  | S n' =>
      let '(r, self') := __anext__ self in
      let '(rs, self'') := consume n' self' in
      (r :: rs, self'')
  end.

End WebSocketMessageStreamMock.

Module Stream := WebSocketMessageStreamMock.

(** *** Code that uses the stream *)

(** What a consumer can do with the connection object. *)
Inductive stream_call : Type :=
| call_anext
| call_send (data : bytes)
| call_close.

(** One such call: the outcome of [__anext__] if it was one, and the object
    afterwards. *)
Definition stream_step (c : stream_call) (self : Stream.t)
    : option (exn + bytes) * Stream.t :=
  match c with
  | call_anext => let '(r, self') := Stream.__anext__ self in (Some r, self')
  | call_send data => (None, (Stream.send self data).2)
  | call_close => (None, (Stream.close self).2)
  end.

(** A sequence of calls on the same object, with the outcomes of its
    [__anext__] calls. *)
Fixpoint stream_session (cs : list stream_call) (self : Stream.t)
    : list (exn + bytes) * Stream.t :=
  match cs with
  | [] => ([], self)
  | c :: cs' =>
      let '(r, self') := stream_step c self in
      let '(rs, self'') := stream_session cs' self' in
      (from_option (fun x => [x]) [] r ++ rs, self'')
  end.

(** How many of the calls are [__anext__]. *)
Fixpoint anext_count (cs : list stream_call) : nat :=
  match cs with
  | [] => 0
  | call_anext :: cs' => S (anext_count cs')
  | _ :: cs' => anext_count cs'
  end.

(** [async for message in stream: seen.append(message)]: the loop takes
    [__aiter__] of the object, then awaits [__anext__] until it raises;
    an instance of [StopAsyncIteration] ends the loop normally, any other
    exception leaves it. [fuel] bounds the number of rounds; [None] is fuel
    run out. *)
Fixpoint async_for_rounds (fuel : nat) (it : Stream.t) (seen : list bytes)
    : option ((exn + unit) * list bytes * Stream.t) :=
  match fuel with
  | O => None
  | S fuel' =>
      match Stream.__anext__ it with
      | (inr message, it') => async_for_rounds fuel' it' (seen ++ [message])
      | (inl e, it') =>
          if isinstance_StopAsyncIteration e then Some (inr tt, seen, it')
          else Some (inl e, seen, it')
      end
  end.

Definition async_for (fuel : nat) (stream : Stream.t)
    : option ((exn + unit) * list bytes * Stream.t) :=
  async_for_rounds fuel (Stream.__aiter__ stream) [].

(** ** Fixtures and auxiliary predicates *)

(** A stub real session for the synchronous transport: the world is the
    number of calls it has received. *)
Definition stub_session : handler (@Sync.call unit string) nat :=
  fun X c n =>
    match c in Sync.call X return (exn + X) * nat with
    | Sync.cache_and_return_session _ => (inr tt, S n)
    | Sync.request _ _ _ _ => (inr "real response", S n)
    end.

Definition async_stub_session : handler (@Async.call unit string) nat :=
  fun X c n =>
    match c in Async.call X return (exn + X) * nat with
    | Async.async_cache_and_return_session _ => (inr tt, S n)
    | Async.request _ _ _ _ => (inr "real response", S n)
    end.



(** A rule for a POST gateway, and calls to test it with. *)
Definition post_rule : rule :=
  {| http_method := "POST";
     mocked_request_url := Some "https://gateway.test/lookup";
     mocked_status_code := 200;
     mocked_json_data := "0xfeed";
     json_data_field := "data";
     sender := Some "0xSender";
     calldata := Some "0xCalldata" |}.

Definition to_gateway : list pyval :=
  [VObject 1; VStr "https://gateway.test/lookup"].

Definition to_elsewhere : list pyval :=
  [VObject 1; VStr "https://elsewhere.test/"].

Definition good_body : pyval :=
  VDict (<["data" := Some "0xCalldata"]> (<["sender" := Some "0xSender"]> ∅)).

Definition bad_body : pyval :=
  VDict (<["data" := Some "0xOther"]> (<["sender" := Some "0xSender"]> ∅)).

(** Stand-ins for the two library functions in examples: addresses are
    compared without regard to letter case, and a hash is read as the
    hexadecimal digits that follow ["0x"]. *)
Definition same_address_ignoring_case (a b : pyval) : exn + bool :=
  match a, b with
  | VStr x, VStr y => inr (bool_decide (lower x = lower y))
  | _, _ => inl ValueError
  end.

Definition hex_digit (c : ascii) : option N :=
  let n := N_of_ascii c in
  if (48 <=? n)%N && (n <=? 57)%N then Some (n - 48)%N
  else if (97 <=? n)%N && (n <=? 102)%N then Some (n - 87)%N
  else if (65 <=? n)%N && (n <=? 70)%N then Some (n - 55)%N
  else None.

Fixpoint hex_pairs (s : string) : option bytes :=
  match s with
  | EmptyString => Some []
  | String hi (String lo rest) =>
      h ← hex_digit hi;
      l ← hex_digit lo;
      b ← Byte.of_N (16 * h + l);
      tl ← hex_pairs rest;
      Some (b :: tl)
  | String _ EmptyString => None
  end.

Definition bytes_of_hexstr (v : pyval) : exn + bytes :=
  match v with
  | VStr (String "0" (String "x" digits)) =>
      match hex_pairs digits with
      | Some b => inr b
      | None => inl ValueError
      end
  | VBytes b => inr b
  | _ => inl TypeError
  end.

(** A block, and a log entry of its transaction. *)
Definition sample_block : gmap string pyval :=
  <["number" := VInt 10]> (<["hash" := VBytes [xbe; xef]%byte]> ∅).

Definition sample_log (logIndex : pyval) : gmap string pyval :=
  <["blockNumber" := VInt 10]>
  (<["blockHash" := VBytes [xbe; xef]%byte]>
  (<["logIndex" := logIndex]>
  (<["address" := VStr "0xAbCd"]>
  (<["transactionIndex" := VInt 0]>
  (<["transactionHash" := VBytes [x12; x34]%byte]> ∅))))).

(** The dictionary [d] has [key], and its value is [==] to [v]. *)
Definition field_equals (d : gmap string pyval) (key : string) (v : pyval) : Prop :=
  exists x, d !! key = Some x /\ py_eq x v = true.

(** The keys [assert_contains_log] looks up. *)
Definition keys_read : list string :=
  ["blockNumber"; "number"; "blockHash"; "hash"; "logIndex"; "address";
   "transactionIndex"; "transactionHash"].

(** ** Properties of the message stream double *)

Section StreamFacts.
Import WebSocketMessageStreamMock.

Lemma init_messages (msgs : list bytes) (e : option exn) :
  __init__ (Some msgs) e = mk false msgs e.
Proof. destruct msgs; reflexivity. Qed.

Lemma consume_app (n k : nat) (s : t) :
  consume (n + k) s =
    let '(rs, s') := consume n s in
    let '(rs', s'') := consume k s' in
    (rs ++ rs', s'').
Proof.
  revert s. induction n as [|n IH]; intros s; simpl.
  - destruct (consume k s); reflexivity.
  - destruct (__anext__ s) as [r s1]. rewrite IH.
    destruct (consume n s1) as [rs s2].
    destruct (consume k s2); reflexivity.
Qed.

(** Draining a queue of [msgs] with no failure set yields them in order
    and leaves the queue empty. *)
Lemma consume_queue (c : bool) (msgs : list bytes) :
  consume (length msgs) (mk c msgs None) = (inr <$> msgs, mk c [] None).
Proof.
  induction msgs as [|m msgs IH]; simpl; [reflexivity|].
  unfold __anext__; simpl. rewrite IH. reflexivity.
Qed.

(** The exhausted stream stays exhausted. *)
Lemma consume_ended (c : bool) (k : nat) :
  consume k (mk c [] None)
    = (replicate k (inl StopAsyncIteration), mk c [] None).
Proof.
  induction k as [|k IH]; simpl; [reflexivity|].
  unfold __anext__; simpl. rewrite IH. reflexivity.
Qed.

(** A failure that is set and true is what the body raises. *)
Lemma anext_failing (s : t) (e : exn) :
  raise_exception s = Some e -> exn_truth e = true ->
  __anext__ s = (inl (out_of_coroutine e), s).
Proof.
  intros He Ht. unfold __anext__, __anext__body, failure_set.
  rewrite He, Ht. reflexivity.
Qed.

Lemma consume_failing (n : nat) (s : t) (e : exn) :
  raise_exception s = Some e -> exn_truth e = true ->
  consume n s = (replicate n (inl (out_of_coroutine e)), s).
Proof.
  intros He Ht. induction n as [|n IH]; simpl; [reflexivity|].
  rewrite (anext_failing s e He Ht), IH. reflexivity.
Qed.

(** A call that raises has not touched the object. *)
Lemma anext_raise_keeps (s : t) (e : exn) :
  (__anext__ s).1 = inl e -> (__anext__ s).2 = s.
Proof.
  destruct s as [c msgs f]. unfold __anext__, __anext__body, failure_set. simpl.
  destruct f as [e'|]; [destruct (exn_truth e')|]; simpl;
    try (destruct msgs as [|m rest]; simpl);
    intros H; try discriminate H; reflexivity.
Qed.

End StreamFacts.

(** C5. For every finite list of messages given to the constructor and no
    injected failure, [length msgs + k] successive [__anext__] calls return
    the messages one by one in the order supplied, then raise
    [StopAsyncIteration] on each of the [k] further calls; the queue is
    empty afterwards. *)
Theorem stream_fifo_then_end (msgs : list bytes) (k : nat) :
  Stream.consume (length msgs + k) (Stream.__init__ (Some msgs) None) =
    ((inr <$> msgs) ++ replicate k (inl StopAsyncIteration),
     Stream.mk false [] None).
Proof.
  rewrite init_messages, consume_app, consume_queue, consume_ended.
  reflexivity.
Qed.

(** C6, amended. With an injected failure [e] that is true in a condition
    and is not a [StopIteration], each of [n] successive [__anext__] calls
    raises [e], whatever messages were queued at construction: no message
    is ever returned, and the object stays as constructed. *)
Theorem stream_failure_every_call
    (msgs : option (list bytes)) (e : exn) (n : nat) :
  exn_truth e = true ->
  isinstance_StopIteration e = false ->
  Stream.consume n (Stream.__init__ msgs (Some e))
    = (replicate n (inl e), Stream.__init__ msgs (Some e)).
Proof.
  intros Ht Hs.
  rewrite (consume_failing n (Stream.__init__ msgs (Some e)) e eq_refl Ht).
  unfold out_of_coroutine. rewrite Hs. reflexivity.
Qed.

Lemma stream_failure_every_call_witness :
  Stream.consume 3
    (Stream.__init__ (Some [[x61%byte]]) (Some (OtherError "ConnectionClosed")))
  = ([inl (OtherError "ConnectionClosed"); inl (OtherError "ConnectionClosed");
      inl (OtherError "ConnectionClosed")],
     Stream.__init__ (Some [[x61%byte]]) (Some (OtherError "ConnectionClosed"))).
Proof.
  apply (stream_failure_every_call (Some [[x61%byte]])
           (OtherError "ConnectionClosed") 3); reflexivity.
Defined.

(** C6 as stated fails for two kinds of injected failure. An instance of an
    exception class whose [__bool__] returns [False] is skipped by the
    truth test, and the queued message is returned; a [StopIteration]
    raised in the coroutine comes out as a [RuntimeError]. *)
Lemma stream_failure_not_every_call :
  let falsy := UserException "Quiet" false false false in
  Stream.raise_exception (Stream.__init__ (Some [[x61%byte]]) (Some falsy))
    = Some falsy /\
  (Stream.__anext__ (Stream.__init__ (Some [[x61%byte]]) (Some falsy))).1
    = inr [x61%byte] /\
  (Stream.__anext__ (Stream.__init__ (Some [[x61%byte]]) (Some falsy))).1
    <> inl falsy /\
  (Stream.__anext__ (Stream.__init__ None (Some StopIteration))).1
    = inl (RuntimeError "coroutine raised StopIteration") /\
  (Stream.__anext__ (Stream.__init__ None (Some StopIteration))).1
    <> inl StopIteration.
Proof. vm_compute. repeat split; try reflexivity; discriminate. Qed.

(** C10. When a failure is set, an [__anext__] call that raises it returns
    the object as it was: same queue, same failure, same [closed] flag.
    The call does raise it whenever the failure is true in a condition and
    is not a [StopIteration]. *)
Theorem stream_failure_keeps_state (s : Stream.t) (e : exn) :
  Stream.raise_exception s = Some e ->
  ((Stream.__anext__ s).1 = inl e -> Stream.__anext__ s = (inl e, s)) /\
  (exn_truth e = true -> isinstance_StopIteration e = false ->
   Stream.__anext__ s = (inl e, s)).
Proof.
  intros He. split.
  - intros Hraised. pose proof (anext_raise_keeps s e Hraised) as Hkept.
    destruct (Stream.__anext__ s) as [outcome s']. simpl in Hraised, Hkept.
    congruence.
  - intros Ht Hs. rewrite (anext_failing s e He Ht).
    unfold out_of_coroutine. rewrite Hs. reflexivity.
Qed.

Lemma stream_failure_keeps_state_witness :
  let s := Stream.mk true [[x61%byte]; [x62%byte]]
             (Some (OtherError "ConnectionClosed")) in
  Stream.raise_exception s = Some (OtherError "ConnectionClosed") /\
  (Stream.__anext__ s).1 = inl (OtherError "ConnectionClosed") /\
  Stream.__anext__ s = (inl (OtherError "ConnectionClosed"), s).
Proof.
  split; [reflexivity|]. split; [reflexivity|].
  apply (stream_failure_keeps_state _ (OtherError "ConnectionClosed"));
    reflexivity.
Defined.

Example stream_two_messages :
  (Stream.consume 4 (Stream.__init__ (Some [[x61%byte]; [x62%byte]]) None)).1
  = [inr [x61%byte]; inr [x62%byte];
     inl StopAsyncIteration; inl StopAsyncIteration].
Proof. reflexivity. Qed.

(** ** Properties of the monad *)

Section IoFacts.
Context {E : Type -> Type}.

Lemma bind_ret_inv {A B : Type} (m : io E A) (f : A -> io E B) (b : B) :
  m ≫= f = Ret b -> exists a, m = Ret a /\ f a = Ret b.
Proof.
  destruct m as [a|e|X c k]; simpl; intros H; try discriminate H.
  exists a. split; [reflexivity|exact H].
Qed.

Lemma getitem_ret {V : Type} (d : gmap string V) (key : string) (v : V) :
  getitem (E := E) d key = Ret v <-> d !! key = Some v.
Proof.
  unfold getitem. destruct (d !! key) as [x|]; split; intros H;
    try discriminate H; congruence.
Qed.

Lemma getitem_seq_ret {V : Type} (l : list V) (i : nat) (v : V) :
  getitem_seq (E := E) l i = Ret v <-> l !! i = Some v.
Proof.
  unfold getitem_seq. destruct (l !! i) as [x|]; split; intros H;
    try discriminate H; congruence.
Qed.

Lemma assert_ret (b : bool) : assert_ (E := E) b = Ret tt <-> b = true.
Proof. destruct b; simpl; split; intros H; try discriminate H; reflexivity. Qed.

Lemma of_result_ret {A : Type} (r : exn + A) (a : A) :
  of_result (E := E) r = Ret a <-> r = inr a.
Proof.
  destruct r as [e|x]; simpl; split; intros H; try discriminate H; congruence.
Qed.

End IoFacts.

(** No upper-cased text has a lower-case letter in it. *)
Lemma upper_ascii_not_p (c : ascii) : upper_ascii c <> "p"%char.
Proof.
  destruct c as [[] [] [] [] [] [] [] []]; vm_compute; discriminate.
Qed.

Lemma upper_not_post (s : string) : upper s <> "post".
Proof.
  destruct s as [|c s]; simpl; [discriminate|].
  intros H. injection H as Hc _. exact (upper_ascii_not_p c Hc).
Qed.

(** ** Properties of the request interceptors *)

Example sync_post_good :
  run stub_session
    (Sync._mock_specific_request post_rule to_gateway
       (<["timeout" := VInt 10]> (<["data" := good_body]> ∅))) 0%nat
  = (inr (inr (Sync.MockedResponse.new post_rule)), 0%nat, []).
Proof. vm_compute. reflexivity. Qed.

Example sync_post_bad :
  Sync._mock_specific_request (Session := unit) (Response := string)
    post_rule to_gateway
    (<["timeout" := VInt 10]> (<["data" := bad_body]> ∅))
  = Raise AssertionError.
Proof. vm_compute. reflexivity. Qed.

Example sync_elsewhere :
  run stub_session
    (Sync._mock_specific_request post_rule to_elsewhere
       (<["timeout" := VInt 5]> ∅)) 0%nat
  = (inr (inl "real response"), 2%nat,
     [existT _ (Sync.cache_and_return_session (VStr "https://elsewhere.test/"));
      existT _ (Sync.request tt "POST" (VStr "https://elsewhere.test/")
                  (<["timeout" := VInt 5]> ∅))]).
Proof. vm_compute. reflexivity. Qed.

Section InterceptorFacts.

Variables (r : rule) (args : list pyval) (kwargs : gmap string pyval).
Variable url : pyval.
Hypothesis Hurl : args !! 1%nat = Some url.

(** What the synchronous closure does once the URL is the mocked one. *)
Lemma sync_on_target {Session Response : Type} :
  py_eq url (of_optional_str (mocked_request_url r)) = true ->
  Sync._mock_specific_request (Session := Session) (Response := Response)
    r args kwargs =
  (timeout ← getitem kwargs "timeout";
   assert_ (py_eq timeout (VInt 10));;
   (if bool_decide (upper (http_method r) = "POST") then
      data ← getitem kwargs "data";
      assert_ (py_eq data (expected_data r))
    else mret tt);;
   mret (inr (Sync.MockedResponse.new r))).
Proof.
  intros Hm. unfold Sync._mock_specific_request, getitem_seq.
  rewrite Hurl. simpl. rewrite Hm. reflexivity.
Qed.

(** The asynchronous closure on the mocked URL: the body check sits under
    a comparison of upper-cased text with ["post"], which never holds. *)
Lemma async_on_target {ClientSession ClientResponse : Type} :
  py_eq url (of_optional_str (mocked_request_url r)) = true ->
  Async._mock_specific_request (ClientSession := ClientSession)
    (ClientResponse := ClientResponse) r args kwargs =
  (timeout ← getitem kwargs "timeout";
   assert_ (py_eq timeout (VClientTimeout (ClientTimeout_new 10)));;
   mret (inr (Async.AsyncMockedResponse.new r))).
Proof.
  intros Hm. unfold Async._mock_specific_request, getitem_seq.
  rewrite Hurl. simpl. rewrite Hm.
  rewrite bool_decide_eq_false_2 by apply upper_not_post.
  unfold getitem. destruct (kwargs !! "timeout") as [t|]; simpl; [|reflexivity].
  destruct (py_eq t _); reflexivity.
Qed.

Lemma sync_off_target {Session Response : Type} :
  py_eq url (of_optional_str (mocked_request_url r)) = false ->
  Sync._mock_specific_request (Session := Session) (Response := Response)
    r args kwargs =
  Do (Sync.cache_and_return_session url) (fun session =>
  Do (Sync.request session (upper (http_method r)) url kwargs) (fun response =>
  Ret (inl response))).
Proof.
  intros Hm. unfold Sync._mock_specific_request, getitem_seq.
  rewrite Hurl. simpl. rewrite Hm. reflexivity.
Qed.

Lemma async_off_target {ClientSession ClientResponse : Type} :
  py_eq url (of_optional_str (mocked_request_url r)) = false ->
  Async._mock_specific_request (ClientSession := ClientSession)
    (ClientResponse := ClientResponse) r args kwargs =
  Do (Async.async_cache_and_return_session url) (fun session =>
  Do (Async.request session (upper (http_method r)) url kwargs) (fun response =>
  Ret (inl response))).
Proof.
  intros Hm. unfold Async._mock_specific_request, getitem_seq.
  rewrite Hurl. simpl. rewrite Hm. reflexivity.
Qed.

End InterceptorFacts.

(** C1, amended. For every call whose URL is the mocked one and whose
    options carry a timeout that is not the expected one ([10] for the
    synchronous closure, [ClientTimeout(10)] for the asynchronous one), the
    closure raises [AssertionError]: it makes no call and returns no
    response. *)
Theorem timeout_checked_on_target_url
    (r : rule) (args : list pyval) (kwargs : gmap string pyval)
    (url timeout : pyval) :
  args !! 1%nat = Some url ->
  py_eq url (of_optional_str (mocked_request_url r)) = true ->
  kwargs !! "timeout" = Some timeout ->
  (py_eq timeout (VInt 10) = false ->
   forall Session Response : Type,
     Sync._mock_specific_request (Session := Session) (Response := Response)
       r args kwargs = Raise AssertionError) /\
  (py_eq timeout (VClientTimeout (ClientTimeout_new 10)) = false ->
   forall ClientSession ClientResponse : Type,
     Async._mock_specific_request (ClientSession := ClientSession)
       (ClientResponse := ClientResponse) r args kwargs = Raise AssertionError).
Proof.
  intros Hurl Hm Ht. split; intros Hne S R.
  - rewrite (sync_on_target r args kwargs url Hurl Hm).
    unfold getitem. rewrite Ht. simpl. rewrite Hne. reflexivity.
  - rewrite (async_on_target r args kwargs url Hurl Hm).
    unfold getitem. rewrite Ht. simpl. rewrite Hne. reflexivity.
Qed.

Lemma timeout_checked_on_target_url_witness :
  Sync._mock_specific_request (Session := unit) (Response := string)
    post_rule to_gateway (<["timeout" := VInt 5]> ∅) = Raise AssertionError /\
  Async._mock_specific_request (ClientSession := unit) (ClientResponse := string)
    post_rule to_gateway (<["timeout" := VInt 5]> ∅) = Raise AssertionError.
Proof.
  destruct (timeout_checked_on_target_url post_rule to_gateway
              (<["timeout" := VInt 5]> ∅)
              (VStr "https://gateway.test/lookup") (VInt 5)) as [Hs Ha];
    [reflexivity | reflexivity | reflexivity |].
  split; [apply Hs | apply Ha]; reflexivity.
Defined.

(** C1 as stated fails away from the mocked URL: with a timeout of [5] the
    call is forwarded and the real response comes back, from both
    closures. *)
Lemma timeout_unchecked_off_target_url :
  let kwargs : gmap string pyval := <["timeout" := VInt 5]> ∅ in
  to_elsewhere !! 1%nat = Some (VStr "https://elsewhere.test/") /\
  py_eq (VStr "https://elsewhere.test/")
    (of_optional_str (mocked_request_url post_rule)) = false /\
  kwargs !! "timeout" = Some (VInt 5) /\
  py_eq (VInt 5) (VInt 10) = false /\
  py_eq (VInt 5) (VClientTimeout (ClientTimeout_new 10)) = false /\
  (run stub_session
     (Sync._mock_specific_request post_rule to_elsewhere kwargs) 0%nat).1.1
    = inr (inl "real response") /\
  (run async_stub_session
     (Async._mock_specific_request post_rule to_elsewhere kwargs) 0%nat).1.1
    = inr (inl "real response") /\
  Sync._mock_specific_request (Session := unit) (Response := string)
    post_rule to_elsewhere kwargs <> Raise AssertionError /\
  Async._mock_specific_request (ClientSession := unit) (ClientResponse := string)
    post_rule to_elsewhere kwargs <> Raise AssertionError.
Proof. vm_compute. repeat split; try reflexivity; discriminate. Qed.

(** C2. The failing input: a POST rule, the mocked URL, the expected
    timeout and a body that is not [{"data": calldata, "sender": sender}].
    The synchronous closure raises [AssertionError]; the asynchronous one
    returns its synthetic response. *)
Theorem async_post_body_not_validated :
  let kwargs : gmap string pyval :=
    <["timeout" := VClientTimeout (ClientTimeout_new 10)]> (<["data" := bad_body]> ∅) in
  upper (http_method post_rule) = "POST" /\
  py_eq bad_body (expected_data post_rule) = false /\
  Async._mock_specific_request (ClientSession := unit) (ClientResponse := string)
    post_rule to_gateway kwargs
    = Ret (inr (Async.AsyncMockedResponse.new post_rule)) /\
  Sync._mock_specific_request (Session := unit) (Response := string)
    post_rule to_gateway (<["timeout" := VInt 10]> (<["data" := bad_body]> ∅))
    = Raise AssertionError.
Proof. vm_compute. repeat split; reflexivity. Qed.

(** C3. For every call whose URL is not the mocked one, either closure is
    exactly the real-session path: it asks the session factory for the
    session of that URL, calls [session.request] with the upper-cased
    method, the same URL and the options it was given, and returns what
    that call returns. *)
Theorem pass_through_transparency
    (r : rule) (args : list pyval) (kwargs : gmap string pyval) (url : pyval) :
  args !! 1%nat = Some url ->
  py_eq url (of_optional_str (mocked_request_url r)) = false ->
  (forall Session Response : Type,
     Sync._mock_specific_request (Session := Session) (Response := Response)
       r args kwargs =
     Do (Sync.cache_and_return_session url) (fun session =>
     Do (Sync.request session (upper (http_method r)) url kwargs) (fun response =>
     Ret (inl response)))) /\
  (forall ClientSession ClientResponse : Type,
     Async._mock_specific_request (ClientSession := ClientSession)
       (ClientResponse := ClientResponse) r args kwargs =
     Do (Async.async_cache_and_return_session url) (fun session =>
     Do (Async.request session (upper (http_method r)) url kwargs) (fun response =>
     Ret (inl response)))).
Proof.
  intros Hurl Hm. split; intros S R.
  - exact (sync_off_target r args kwargs url Hurl Hm).
  - exact (async_off_target r args kwargs url Hurl Hm).
Qed.

Lemma pass_through_transparency_witness :
  let kwargs : gmap string pyval := <["timeout" := VInt 10]> ∅ in
  run stub_session
    (Sync._mock_specific_request post_rule to_elsewhere kwargs) 0%nat
  = (inr (inl "real response"), 2%nat,
     [existT _ (Sync.cache_and_return_session (VStr "https://elsewhere.test/"));
      existT _ (Sync.request tt "POST" (VStr "https://elsewhere.test/") kwargs)]).
Proof.
  intros kwargs.
  destruct (pass_through_transparency post_rule to_elsewhere kwargs
              (VStr "https://elsewhere.test/")) as [Hs _];
    [reflexivity | reflexivity |].
  rewrite Hs. reflexivity.
Defined.

(** C4. For every call whose URL is the mocked one and whose options pass
    the checks (the expected timeout and, for the synchronous closure under
    POST, the expected body), the closure is the plain return of a
    synthetic response of the rule: run against any real session, it makes
    no call and leaves the session's world as it was. *)
Theorem target_url_never_reaches_real_session
    (r : rule) (args : list pyval) (kwargs : gmap string pyval)
    (url timeout : pyval) :
  args !! 1%nat = Some url ->
  py_eq url (of_optional_str (mocked_request_url r)) = true ->
  kwargs !! "timeout" = Some timeout ->
  (py_eq timeout (VInt 10) = true ->
   (upper (http_method r) = "POST" ->
    exists data, kwargs !! "data" = Some data /\
                 py_eq data (expected_data r) = true) ->
   forall (Session Response W : Type)
     (h : handler (@Sync.call Session Response) W) (w : W),
     Sync._mock_specific_request (Session := Session) (Response := Response)
       r args kwargs = Ret (inr (Sync.MockedResponse.new r)) /\
     run h (Sync._mock_specific_request r args kwargs) w
       = (inr (inr (Sync.MockedResponse.new r)), w, [])) /\
  (py_eq timeout (VClientTimeout (ClientTimeout_new 10)) = true ->
   forall (ClientSession ClientResponse W : Type)
     (h : handler (@Async.call ClientSession ClientResponse) W) (w : W),
     Async._mock_specific_request (ClientSession := ClientSession)
       (ClientResponse := ClientResponse) r args kwargs
       = Ret (inr (Async.AsyncMockedResponse.new r)) /\
     run h (Async._mock_specific_request r args kwargs) w
       = (inr (inr (Async.AsyncMockedResponse.new r)), w, [])).
Proof.
  intros Hurl Hm Ht. split.
  - intros Hok Hbody S R W h w.
    assert (Sync._mock_specific_request (Session := S) (Response := R)
              r args kwargs = Ret (inr (Sync.MockedResponse.new r))) as ->.
    { rewrite (sync_on_target r args kwargs url Hurl Hm).
      unfold getitem. rewrite Ht. simpl. rewrite Hok. simpl.
      case_bool_decide as Hpost; [|reflexivity].
      destruct (Hbody Hpost) as (data & Hd & Hdok).
      rewrite Hd. simpl. rewrite Hdok. reflexivity. }
    split; reflexivity.
  - intros Hok S R W h w.
    assert (Async._mock_specific_request (ClientSession := S)
              (ClientResponse := R) r args kwargs
            = Ret (inr (Async.AsyncMockedResponse.new r))) as ->.
    { rewrite (async_on_target r args kwargs url Hurl Hm).
      unfold getitem. rewrite Ht. simpl. rewrite Hok. reflexivity. }
    split; reflexivity.
Qed.

Lemma target_url_never_reaches_real_session_witness :
  run stub_session
    (Sync._mock_specific_request post_rule to_gateway
       (<["timeout" := VInt 10]> (<["data" := good_body]> ∅))) 0%nat
  = (inr (inr (Sync.MockedResponse.new post_rule)), 0%nat, []).
Proof.
  destruct (target_url_never_reaches_real_session post_rule to_gateway
              (<["timeout" := VInt 10]> (<["data" := good_body]> ∅))
              (VStr "https://gateway.test/lookup") (VInt 10)) as [Hs _];
    [reflexivity | reflexivity | reflexivity |].
  apply Hs; [reflexivity|].
  intros _. exists good_body. split; [reflexivity | vm_compute; reflexivity].
Defined.

(** C7. For every field name and payload, [json()] of the synthetic
    response, synchronous or asynchronous, is the dictionary with the one
    entry field -> payload: looking up the field gives the payload, any
    other key is absent; with the default arguments it is
    [{"data": "0x"}]. *)
Theorem synthetic_json_is_single_entry (r : rule) :
  Sync.MockedResponse.json (Sync.MockedResponse.new r)
    = {[ json_data_field r := mocked_json_data r ]} /\
  (forall E : Type -> Type,
     Async.AsyncMockedResponse.json (E := E) (Async.AsyncMockedResponse.new r)
       = Ret {[ json_data_field r := mocked_json_data r ]}) /\
  (forall key : string,
     Sync.MockedResponse.json (Sync.MockedResponse.new r) !! key
       = if decide (key = json_data_field r) then Some (mocked_json_data r)
         else None) /\
  size (Sync.MockedResponse.json (Sync.MockedResponse.new r)) = 1%nat /\
  Sync.MockedResponse.json (Sync.MockedResponse.new defaults)
    = {[ "data" := "0x" ]}.
Proof.
  unfold Sync.MockedResponse.json, Async.AsyncMockedResponse.json. simpl.
  rewrite insert_empty. repeat split.
  - intros key. case_decide as Hk.
    + subst key. apply lookup_singleton_eq.
    + apply lookup_singleton_ne. congruence.
  - apply map_size_singleton.
Qed.

(** C9. [raise_for_status()] of every synthetic response, synchronous or
    asynchronous and whatever its status code, raises
    [Exception("called raise_for_status()")]; as it reads and writes no
    state, so does every later call. *)
Theorem raise_for_status_always_raises (E : Type -> Type) :
  (forall self : Sync.MockedResponse.t,
     Sync.MockedResponse.raise_for_status (E := E) self
       = Raise (Exception "called raise_for_status()")) /\
  (forall self : Async.AsyncMockedResponse.t,
     Async.AsyncMockedResponse.raise_for_status (E := E) self
       = Raise (Exception "called raise_for_status()")).
Proof. split; intros self; reflexivity. Qed.

(** ** Properties of the log assertion *)

Ltac bind_inv H :=
  let a := fresh "a" in
  let Ha := fresh "Hstep" in
  apply bind_ret_inv in H as (a & Ha & H);
  try (match type of a with unit => destruct a end);
  lazymatch type of Ha with
  | assert_ _ = _ => apply assert_ret in Ha
  | getitem _ _ = _ => apply getitem_ret in Ha
  | getitem_seq _ _ = _ => apply getitem_seq_ret in Ha
  | of_result _ = _ => apply of_result_ret in Ha
  end.

(** C8. [assert_contains_log] returns normally exactly when [result] is one
    log entry whose [blockNumber] and [blockHash] equal the block's [number]
    and [hash], whose [logIndex] and [transactionIndex] equal [0], whose
    [address] [is_same_address] accepts against the emitter, and whose
    [transactionHash] equals [HexBytes] of the expected hash. In particular
    a result of any other length raises [AssertionError], and a [logIndex]
    other than [0] makes it fail. *)
Theorem assert_contains_log_iff
    (is_same_address : pyval -> pyval -> exn + bool)
    (HexBytes : pyval -> exn + bytes) (E : Type -> Type)
    (result : list (gmap string pyval)) (block : gmap string pyval)
    (emitter txn_hash : pyval) :
  (assert_contains_log is_same_address HexBytes (E := E)
     result block emitter txn_hash = Ret tt
   <->
   exists (log_entry : gmap string pyval) (number hash address : pyval)
          (expected : bytes),
     result = [log_entry] /\
     block !! "number" = Some number /\
     block !! "hash" = Some hash /\
     field_equals log_entry "blockNumber" number /\
     field_equals log_entry "blockHash" hash /\
     field_equals log_entry "logIndex" (VInt 0) /\
     field_equals log_entry "transactionIndex" (VInt 0) /\
     log_entry !! "address" = Some address /\
     is_same_address address emitter = inr true /\
     HexBytes txn_hash = inr expected /\
     field_equals log_entry "transactionHash" (VBytes expected)) /\
  (length result <> 1%nat ->
   assert_contains_log is_same_address HexBytes (E := E)
     result block emitter txn_hash = Raise AssertionError) /\
  (forall (log_entry : gmap string pyval) (logIndex : pyval),
     result = [log_entry] ->
     log_entry !! "logIndex" = Some logIndex ->
     py_eq logIndex (VInt 0) = false ->
     exists e : exn,
       assert_contains_log is_same_address HexBytes (E := E)
         result block emitter txn_hash = Raise e).
Proof.
  split; [split|split].
  - intros H. unfold assert_contains_log in H.
    do 17 bind_inv H. apply assert_ret in H.
    apply bool_decide_eq_true in Hstep.
    destruct result as [|log_entry [|? ?]]; try discriminate Hstep.
    simpl in Hstep0. injection Hstep0 as <-. subst a6.
    exists log_entry, a1, a3, a5, a9. unfold field_equals.
    repeat split; try eassumption; eexists; split; eassumption.
  - intros (log_entry & number & hash & address & expected & -> & Hn & Hh
            & (bn & Hbn & Hbn') & (bh & Hbh & Hbh') & (li & Hli & Hli')
            & (ti & Hti & Hti') & Ha & Hsame & Hhex & (th & Hth & Hth')).
    unfold assert_contains_log, getitem, getitem_seq. simpl.
    rewrite Hbn, Hn. simpl. rewrite Hbn'. simpl.
    rewrite Hbh, Hh. simpl. rewrite Hbh'. simpl.
    rewrite Hli. simpl. rewrite Hli'. simpl.
    rewrite Ha. simpl. rewrite Hsame. simpl.
    rewrite Hti. simpl. rewrite Hti'. simpl.
    rewrite Hth. simpl. rewrite Hhex. simpl. rewrite Hth'. reflexivity.
  - intros Hlen. unfold assert_contains_log.
    rewrite bool_decide_eq_false_2 by exact Hlen. reflexivity.
  - intros log_entry logIndex -> Hli Hne.
    unfold assert_contains_log, getitem, getitem_seq. simpl.
    destruct (log_entry !! "blockNumber") as [bn|]; simpl; [|eauto].
    destruct (block !! "number") as [n|]; simpl; [|eauto].
    destruct (py_eq bn n); simpl; [|eauto].
    destruct (log_entry !! "blockHash") as [bh|]; simpl; [|eauto].
    destruct (block !! "hash") as [h|]; simpl; [|eauto].
    destruct (py_eq bh h); simpl; [|eauto].
    rewrite Hli. simpl. rewrite Hne. simpl. eauto.
Qed.

Example assert_contains_log_passes :
  assert_contains_log same_address_ignoring_case bytes_of_hexstr (E := Sync.call (Session := unit) (Response := unit))
    [sample_log (VInt 0)] sample_block (VStr "0xabcd") (VStr "0x1234") = Ret tt.
Proof. vm_compute. reflexivity. Qed.

Example assert_contains_log_rejects :
  let check result emitter :=
    assert_contains_log same_address_ignoring_case bytes_of_hexstr
      (E := Sync.call (Session := unit) (Response := unit))
      result sample_block emitter (VStr "0x1234") in
  check [] (VStr "0xabcd") = Raise AssertionError /\
  check [sample_log (VInt 0); sample_log (VInt 0)] (VStr "0xabcd")
    = Raise AssertionError /\
  check [sample_log (VInt 1)] (VStr "0xabcd") = Raise AssertionError /\
  check [sample_log (VInt 0)] (VStr "0xabce") = Raise AssertionError /\
  check [sample_log (VBool false)] (VStr "0xABCD") = Ret tt.
Proof. vm_compute. repeat split; reflexivity. Qed.

(** ** Further properties of the message stream double *)

Section StreamUse.
Import WebSocketMessageStreamMock.

Lemma consume_prefix (c : bool) (n : nat) : forall msgs : list bytes,
  consume n (mk c msgs None)
    = ((inr <$> take n msgs)
         ++ replicate (n - length msgs) (inl StopAsyncIteration),
       mk c (drop n msgs) None).
Proof.
  induction n as [|n IH]; intros msgs.
  - simpl. rewrite drop_0. reflexivity.
  - destruct msgs as [|m msgs]; simpl; unfold __anext__; simpl; rewrite IH.
    + rewrite take_nil, drop_nil, Nat.sub_0_r. reflexivity.
    + reflexivity.
Qed.

(** A failure that is set but false in a condition is passed over. *)
Lemma consume_prefix_falsy (c : bool) (e : exn) (n : nat) :
  exn_truth e = false ->
  forall msgs : list bytes,
  consume n (mk c msgs (Some e))
    = ((inr <$> take n msgs)
         ++ replicate (n - length msgs) (inl StopAsyncIteration),
       mk c (drop n msgs) (Some e)).
Proof.
  intros Hf. induction n as [|n IH]; intros msgs.
  - simpl. rewrite drop_0. reflexivity.
  - destruct msgs as [|m msgs]; simpl;
      unfold __anext__, __anext__body, failure_set; simpl;
      rewrite Hf; simpl; rewrite IH.
    + rewrite take_nil, drop_nil, Nat.sub_0_r. reflexivity.
    + reflexivity.
Qed.

Lemma session_is_consume (cs : list stream_call) : forall s : t,
  stream_session cs s = consume (anext_count cs) s.
Proof.
  induction cs as [|c cs IH]; intros s; [reflexivity|].
  destruct c; simpl.
  - destruct (__anext__ s) as [r s1]. rewrite IH.
    destruct (consume (anext_count cs) s1). reflexivity.
  - rewrite IH. destruct (consume (anext_count cs) s). reflexivity.
  - rewrite IH. destruct (consume (anext_count cs) s). reflexivity.
Qed.

(** One [__anext__] keeps the flags and takes at most the head. *)
Lemma anext_keeps (s : t) :
  closed (__anext__ s).2 = closed s /\
  raise_exception (__anext__ s).2 = raise_exception s /\
  (messages (__anext__ s).2 = messages s \/
   messages (__anext__ s).2 = drop 1 (messages s)).
Proof.
  destruct s as [c msgs f]. unfold __anext__, __anext__body, failure_set.
  simpl. destruct f as [e|]; [destruct (exn_truth e)|]; simpl;
    try (destruct msgs as [|m rest]; simpl); try rewrite drop_0; auto.
Qed.

Lemma consume_keeps (n : nat) : forall s : t,
  closed (consume n s).2 = closed s /\
  raise_exception (consume n s).2 = raise_exception s /\
  exists k, (k <= n)%nat /\ messages (consume n s).2 = drop k (messages s).
Proof.
  induction n as [|n IH]; intros s; simpl.
  - repeat split. exists 0%nat. split; [lia|]. rewrite drop_0. reflexivity.
  - pose proof (anext_keeps s) as (Hc & He & Hm).
    destruct (__anext__ s) as [r s1]. simpl in Hc, He, Hm.
    specialize (IH s1) as (Hc' & He' & k & Hk & Hm').
    destruct (consume n s1) as [rs s2]. simpl in *.
    split; [congruence|]. split; [congruence|].
    destruct Hm as [Hm|Hm]; rewrite Hm' , Hm.
    + exists k. split; [lia|reflexivity].
    + exists (1 + k)%nat. split; [lia|]. rewrite drop_drop. reflexivity.
Qed.

Lemma async_for_rounds_drains (c : bool) (msgs : list bytes) :
  forall (fuel : nat) (seen : list bytes),
  (length msgs < fuel)%nat ->
  async_for_rounds fuel (mk c msgs None) seen
    = Some (inr tt, seen ++ msgs, mk c [] None).
Proof.
  induction msgs as [|m msgs IH]; intros fuel seen Hfuel;
    (destruct fuel as [|fuel]; [simpl in Hfuel; lia|]); simpl.
  - unfold __anext__; simpl. rewrite app_nil_r. reflexivity.
  - unfold __anext__; simpl. rewrite IH by (simpl in Hfuel; lia).
    rewrite <- app_assoc. reflexivity.
Qed.

End StreamUse.

(** X1. With no failure set, [n] successive [__anext__] calls return the
    first [n] queued messages in order, pad with [StopAsyncIteration] when
    the queue is shorter, and leave exactly the messages not yet read. *)
Theorem stream_partial_consumption (c : bool) (msgs : list bytes) (n : nat) :
  Stream.consume n (Stream.mk c msgs None)
    = ((inr <$> take n msgs)
         ++ replicate (n - length msgs) (inl StopAsyncIteration),
       Stream.mk c (drop n msgs) None).
Proof. apply consume_prefix. Qed.

(** X2. [send] and [close] are invisible to the reader: any sequence of
    [__anext__], [send] and [close] calls gives the outcomes, and the final
    object, of its [__anext__] calls alone. *)
Theorem stream_send_close_invisible (cs : list stream_call) (s : Stream.t) :
  stream_session cs s = Stream.consume (anext_count cs) s.
Proof. apply session_is_consume. Qed.

(** X3. No sequence of calls changes the [closed] flag or the injected
    failure, and the queue afterwards is the original one without some of
    its first messages, at most one per [__anext__] call. *)
Theorem stream_flags_never_change (cs : list stream_call) (s : Stream.t) :
  Stream.closed (stream_session cs s).2 = Stream.closed s /\
  Stream.raise_exception (stream_session cs s).2 = Stream.raise_exception s /\
  exists k, (k <= anext_count cs)%nat /\
    Stream.messages (stream_session cs s).2 = drop k (Stream.messages s).
Proof. rewrite session_is_consume. apply consume_keeps. Qed.

(** X4. An [async for] loop over a stream built from [messages] with no
    failure sees exactly those messages, in order, ends normally, and
    leaves the queue empty; one round more than there are messages is
    enough. *)
Theorem async_for_sees_all_messages
    (messages : option (list bytes)) (fuel : nat) :
  (length (default [] messages) < fuel)%nat ->
  async_for fuel (Stream.__init__ messages None)
    = Some (inr tt, default [] messages, Stream.mk false [] None).
Proof.
  intros Hfuel. unfold async_for, Stream.__aiter__.
  assert (Stream.__init__ messages None
          = Stream.mk false (default [] messages) None) as ->.
  { destruct messages as [[|m l]|]; reflexivity. }
  apply (async_for_rounds_drains false (default [] messages) fuel []), Hfuel.
Qed.

Lemma async_for_sees_all_messages_witness :
  async_for 3 (Stream.__init__ (Some [[x61%byte]; [x62%byte]]) None)
    = Some (inr tt, [[x61%byte]; [x62%byte]], Stream.mk false [] None).
Proof.
  apply (async_for_sees_all_messages (Some [[x61%byte]; [x62%byte]]) 3).
  simpl. lia.
Defined.

(** X5. An [async for] loop over a stream whose injected failure [e] is
    true in a condition sees no message and leaves the object untouched.
    It is left by what [__anext__] raises: [e] itself, or a [RuntimeError]
    when [e] is a [StopIteration]; but when that is an instance of
    [StopAsyncIteration] the loop ends normally, as on an empty stream. *)
Theorem async_for_with_failure (s : Stream.t) (e : exn) (fuel : nat) :
  Stream.raise_exception s = Some e ->
  exn_truth e = true ->
  (0 < fuel)%nat ->
  async_for fuel s
    = Some (if isinstance_StopAsyncIteration (out_of_coroutine e)
            then inr tt else inl (out_of_coroutine e),
            [], s).
Proof.
  intros He Ht Hfuel. destruct fuel as [|fuel]; [lia|].
  unfold async_for, Stream.__aiter__. simpl.
  rewrite (anext_failing s e He Ht).
  destruct (isinstance_StopAsyncIteration (out_of_coroutine e)); reflexivity.
Qed.

Lemma async_for_with_failure_witness :
  let quiet := Stream.__init__ (Some [[x61%byte]]) (Some StopAsyncIteration) in
  let loud := Stream.__init__ (Some [[x61%byte]]) (Some (OtherError "ConnectionClosed")) in
  let stop := Stream.__init__ (Some [[x61%byte]]) (Some StopIteration) in
  async_for 1 quiet = Some (inr tt, [], quiet) /\
  async_for 1 loud = Some (inl (OtherError "ConnectionClosed"), [], loud) /\
  async_for 1 stop
    = Some (inl (RuntimeError "coroutine raised StopIteration"), [], stop).
Proof.
  split; [|split].
  - apply (async_for_with_failure _ StopAsyncIteration 1);
      [reflexivity|reflexivity|lia].
  - apply (async_for_with_failure _ (OtherError "ConnectionClosed") 1);
      [reflexivity|reflexivity|lia].
  - apply (async_for_with_failure _ StopIteration 1);
      [reflexivity|reflexivity|lia].
Defined.

(** X16. An injected failure that is false in a condition (an instance of
    a class whose [__bool__] or [__len__] makes it so) is never raised: the
    stream serves its queue as if no failure were set, and keeps the
    failure on the object. *)
Theorem stream_falsy_failure_is_ignored
    (c : bool) (msgs : list bytes) (e : exn) (n : nat) :
  exn_truth e = false ->
  Stream.consume n (Stream.mk c msgs (Some e))
    = ((inr <$> take n msgs)
         ++ replicate (n - length msgs) (inl StopAsyncIteration),
       Stream.mk c (drop n msgs) (Some e)).
Proof. intros Hf. apply consume_prefix_falsy, Hf. Qed.

Lemma stream_falsy_failure_is_ignored_witness :
  let falsy := UserException "Quiet" false false false in
  Stream.consume 2 (Stream.mk false [[x61%byte]] (Some falsy))
    = ([inr [x61%byte]; inl StopAsyncIteration],
       Stream.mk false [] (Some falsy)).
Proof.
  apply (stream_falsy_failure_is_ignored false [[x61%byte]]
           (UserException "Quiet" false false false) 2).
  reflexivity.
Defined.

(** X17. An injected failure that is a [StopIteration] (and true in a
    condition) never reaches the caller as such: every [__anext__] call
    raises [RuntimeError("coroutine raised StopIteration")], and the object
    stays as it was. *)
Theorem stream_StopIteration_becomes_RuntimeError
    (s : Stream.t) (e : exn) (n : nat) :
  Stream.raise_exception s = Some e ->
  exn_truth e = true ->
  isinstance_StopIteration e = true ->
  Stream.consume n s
    = (replicate n (inl (RuntimeError "coroutine raised StopIteration")), s).
Proof.
  intros He Ht Hs. rewrite (consume_failing n s e He Ht).
  unfold out_of_coroutine. rewrite Hs. reflexivity.
Qed.

Lemma stream_StopIteration_becomes_RuntimeError_witness :
  Stream.consume 2 (Stream.__init__ (Some [[x61%byte]]) (Some StopIteration))
    = ([inl (RuntimeError "coroutine raised StopIteration");
        inl (RuntimeError "coroutine raised StopIteration")],
       Stream.__init__ (Some [[x61%byte]]) (Some StopIteration)).
Proof.
  apply (stream_StopIteration_becomes_RuntimeError _ StopIteration 2);
    reflexivity.
Defined.

(** ** Further properties of the request interceptors *)


(** X7. Called with fewer than two positional arguments, either closure
    raises [IndexError] at once, whatever the rule and the options. *)
Theorem missing_url_raises_IndexError
    (r : rule) (args : list pyval) (kwargs : gmap string pyval) :
  (length args < 2)%nat ->
  (forall Session Response : Type,
     Sync._mock_specific_request (Session := Session) (Response := Response)
       r args kwargs = Raise IndexError) /\
  (forall ClientSession ClientResponse : Type,
     Async._mock_specific_request (ClientSession := ClientSession)
       (ClientResponse := ClientResponse) r args kwargs = Raise IndexError).
Proof.
  intros Hlen.
  assert (args !! 1%nat = None) as Hnone by (apply lookup_ge_None; lia).
  split; intros S R.
  - unfold Sync._mock_specific_request, getitem_seq. rewrite Hnone. reflexivity.
  - unfold Async._mock_specific_request, getitem_seq. rewrite Hnone. reflexivity.
Qed.

Lemma missing_url_raises_IndexError_witness :
  Sync._mock_specific_request (Session := unit) (Response := string)
    post_rule [VObject 1] (<["timeout" := VInt 10]> ∅) = Raise IndexError.
Proof.
  apply (missing_url_raises_IndexError post_rule [VObject 1]).
  simpl. lia.
Defined.

(** X8. On the mocked URL, options without a ["timeout"] key make either
    closure raise [KeyError("timeout")], before any other check. *)
Theorem missing_timeout_raises_KeyError
    (r : rule) (args : list pyval) (kwargs : gmap string pyval) (url : pyval) :
  args !! 1%nat = Some url ->
  py_eq url (of_optional_str (mocked_request_url r)) = true ->
  kwargs !! "timeout" = None ->
  (forall Session Response : Type,
     Sync._mock_specific_request (Session := Session) (Response := Response)
       r args kwargs = Raise (KeyError "timeout")) /\
  (forall ClientSession ClientResponse : Type,
     Async._mock_specific_request (ClientSession := ClientSession)
       (ClientResponse := ClientResponse) r args kwargs
       = Raise (KeyError "timeout")).
Proof.
  intros Hurl Hm Ht. split; intros S R.
  - rewrite (sync_on_target r args kwargs url Hurl Hm).
    unfold getitem. rewrite Ht. reflexivity.
  - rewrite (async_on_target r args kwargs url Hurl Hm).
    unfold getitem. rewrite Ht. reflexivity.
Qed.

Lemma missing_timeout_raises_KeyError_witness :
  Async._mock_specific_request (ClientSession := unit) (ClientResponse := string)
    post_rule to_gateway (<["data" := good_body]> ∅)
    = Raise (KeyError "timeout").
Proof.
  apply (missing_timeout_raises_KeyError post_rule to_gateway
           (<["data" := good_body]> ∅) (VStr "https://gateway.test/lookup"));
    reflexivity.
Defined.

(** X9. The synchronous closure of a POST rule (in any letter case that
    upper-cases to ["POST"]), called on the mocked URL with the expected
    timeout, raises [KeyError("data")] when the options have no body and
    [AssertionError] when the body is not the expected dictionary. *)
Theorem sync_post_body_validated
    (r : rule) (args : list pyval) (kwargs : gmap string pyval)
    (url timeout : pyval) (Session Response : Type) :
  args !! 1%nat = Some url ->
  py_eq url (of_optional_str (mocked_request_url r)) = true ->
  kwargs !! "timeout" = Some timeout ->
  py_eq timeout (VInt 10) = true ->
  upper (http_method r) = "POST" ->
  (kwargs !! "data" = None ->
   Sync._mock_specific_request (Session := Session) (Response := Response)
     r args kwargs = Raise (KeyError "data")) /\
  (forall data : pyval,
     kwargs !! "data" = Some data ->
     py_eq data (expected_data r) = false ->
     Sync._mock_specific_request (Session := Session) (Response := Response)
       r args kwargs = Raise AssertionError).
Proof.
  intros Hurl Hm Ht Hok Hpost.
  rewrite (sync_on_target r args kwargs url Hurl Hm).
  unfold getitem. rewrite Ht. simpl. rewrite Hok. simpl.
  rewrite bool_decide_eq_true_2 by exact Hpost.
  split.
  - intros ->. reflexivity.
  - intros data -> Hne. simpl. rewrite Hne. reflexivity.
Qed.

Lemma sync_post_body_validated_witness :
  Sync._mock_specific_request (Session := unit) (Response := string)
    post_rule to_gateway (<["timeout" := VInt 10]> ∅) = Raise (KeyError "data") /\
  Sync._mock_specific_request (Session := unit) (Response := string)
    post_rule to_gateway (<["timeout" := VInt 10]> (<["data" := bad_body]> ∅))
    = Raise AssertionError.
Proof.
  split.
  - apply (sync_post_body_validated post_rule to_gateway
             (<["timeout" := VInt 10]> ∅)
             (VStr "https://gateway.test/lookup") (VInt 10) unit string);
      reflexivity.
  - apply (sync_post_body_validated post_rule to_gateway
             (<["timeout" := VInt 10]> (<["data" := bad_body]> ∅))
             (VStr "https://gateway.test/lookup") (VInt 10) unit string)
      with (data := bad_body); reflexivity.
Defined.

(** X10. What a call of either closure can be: the real-session path for
    its URL, the synthetic response of its own rule, or one of a few
    exceptions raised before any call is made. The asynchronous closure
    never raises [KeyError("data")]: it does not read the body. *)
Theorem interceptor_outcomes
    (r : rule) (args : list pyval) (kwargs : gmap string pyval) :
  (forall Session Response : Type,
     let call := Sync._mock_specific_request (Session := Session)
                   (Response := Response) r args kwargs in
     call = Ret (inr (Sync.MockedResponse.new r)) \/
     (exists url, args !! 1%nat = Some url /\
        call = Do (Sync.cache_and_return_session url) (fun session =>
               Do (Sync.request session (upper (http_method r)) url kwargs)
                  (fun response => Ret (inl response)))) \/
     call = Raise IndexError \/
     call = Raise (KeyError "timeout") \/
     call = Raise (KeyError "data") \/
     call = Raise AssertionError) /\
  (forall ClientSession ClientResponse : Type,
     let call := Async._mock_specific_request (ClientSession := ClientSession)
                   (ClientResponse := ClientResponse) r args kwargs in
     call = Ret (inr (Async.AsyncMockedResponse.new r)) \/
     (exists url, args !! 1%nat = Some url /\
        call = Do (Async.async_cache_and_return_session url) (fun session =>
               Do (Async.request session (upper (http_method r)) url kwargs)
                  (fun response => Ret (inl response)))) \/
     call = Raise IndexError \/
     call = Raise (KeyError "timeout") \/
     call = Raise AssertionError).
Proof.
  split; intros S R call; subst call.
  - destruct (args !! 1%nat) as [url|] eqn:Hurl.
    2:{ right; right; left.
        unfold Sync._mock_specific_request, getitem_seq.
        rewrite Hurl. reflexivity. }
    destruct (py_eq url (of_optional_str (mocked_request_url r))) eqn:Hm.
    2:{ right; left. exists url. split; [reflexivity|].
        exact (sync_off_target r args kwargs url Hurl Hm). }
    rewrite (sync_on_target r args kwargs url Hurl Hm). unfold getitem.
    destruct (kwargs !! "timeout") as [t|]; simpl; [|auto 10].
    destruct (py_eq t (VInt 10)); simpl; [|auto 10].
    case_bool_decide; simpl; [|auto].
    destruct (kwargs !! "data") as [d|]; simpl; [|auto 10].
    destruct (py_eq d (expected_data r)); simpl; auto 10.
  - destruct (args !! 1%nat) as [url|] eqn:Hurl.
    2:{ right; right; left.
        unfold Async._mock_specific_request, getitem_seq.
        rewrite Hurl. reflexivity. }
    destruct (py_eq url (of_optional_str (mocked_request_url r))) eqn:Hm.
    2:{ right; left. exists url. split; [reflexivity|].
        exact (async_off_target r args kwargs url Hurl Hm). }
    rewrite (async_on_target r args kwargs url Hurl Hm). unfold getitem.
    destruct (kwargs !! "timeout") as [t|]; simpl; [|auto 10].
    destruct (py_eq t (VClientTimeout (ClientTimeout_new 10))); simpl; auto 10.
Qed.

Section PassThroughRuns.

Variables (r : rule) (args : list pyval) (kwargs : gmap string pyval).
Variable url : pyval.
Hypothesis Hurl : args !! 1%nat = Some url.
Hypothesis Hoff : py_eq url (of_optional_str (mocked_request_url r)) = false.





End PassThroughRuns.





(** ** Further properties of the log assertion *)

(** X13. The assertion reads six keys of the log entry and two of the
    block: entries and blocks that agree on those give the same outcome,
    whatever else they hold. *)
Theorem assert_contains_log_reads_only_its_fields
    (is_same_address : pyval -> pyval -> exn + bool)
    (HexBytes : pyval -> exn + bytes) (E : Type -> Type)
    (log_entry log_entry' block block' : gmap string pyval)
    (emitter txn_hash : pyval) :
  log_entry !! "blockNumber" = log_entry' !! "blockNumber" ->
  log_entry !! "blockHash" = log_entry' !! "blockHash" ->
  log_entry !! "logIndex" = log_entry' !! "logIndex" ->
  log_entry !! "address" = log_entry' !! "address" ->
  log_entry !! "transactionIndex" = log_entry' !! "transactionIndex" ->
  log_entry !! "transactionHash" = log_entry' !! "transactionHash" ->
  block !! "number" = block' !! "number" ->
  block !! "hash" = block' !! "hash" ->
  assert_contains_log is_same_address HexBytes (E := E)
    [log_entry] block emitter txn_hash
  = assert_contains_log is_same_address HexBytes (E := E)
      [log_entry'] block' emitter txn_hash.
Proof.
  intros H1 H2 H3 H4 H5 H6 H7 H8.
  unfold assert_contains_log, getitem_seq, getitem. simpl.
  rewrite H1, H2, H3, H4, H5, H6, H7, H8. reflexivity.
Qed.

Lemma assert_contains_log_reads_only_its_fields_witness :
  assert_contains_log same_address_ignoring_case bytes_of_hexstr
    (E := Sync.call (Session := unit) (Response := unit))
    [<["data" := VStr "0x00"]> (sample_log (VInt 0))]
    (<["miner" := VStr "0xAbCd"]> sample_block)
    (VStr "0xabcd") (VStr "0x1234")
  = assert_contains_log same_address_ignoring_case bytes_of_hexstr
      [sample_log (VInt 0)] sample_block (VStr "0xabcd") (VStr "0x1234").
Proof.
  apply assert_contains_log_reads_only_its_fields; reflexivity.
Defined.

(** X14. When the entry passes the block number, block hash and log index
    checks, the verdict on the address is [is_same_address]'s: an exception
    it raises (an invalid address, say) leaves [assert_contains_log] as it
    is, not as an [AssertionError], and [False] gives [AssertionError];
    neither depends on the transaction fields. *)
Theorem assert_contains_log_address_check
    (is_same_address : pyval -> pyval -> exn + bool)
    (HexBytes : pyval -> exn + bytes) (E : Type -> Type)
    (log_entry block : gmap string pyval)
    (number hash address emitter txn_hash : pyval) :
  block !! "number" = Some number ->
  block !! "hash" = Some hash ->
  field_equals log_entry "blockNumber" number ->
  field_equals log_entry "blockHash" hash ->
  field_equals log_entry "logIndex" (VInt 0) ->
  log_entry !! "address" = Some address ->
  (forall e : exn,
     is_same_address address emitter = inl e ->
     assert_contains_log is_same_address HexBytes (E := E)
       [log_entry] block emitter txn_hash = Raise e) /\
  (is_same_address address emitter = inr false ->
   assert_contains_log is_same_address HexBytes (E := E)
     [log_entry] block emitter txn_hash = Raise AssertionError).
Proof.
  intros Hn Hh (bn & Hbn & Hbn') (bh & Hbh & Hbh') (li & Hli & Hli') Ha.
  assert (forall verdict : exn + bool,
            is_same_address address emitter = verdict ->
            assert_contains_log is_same_address HexBytes (E := E)
              [log_entry] block emitter txn_hash
            = (same ← of_result verdict;
               assert_ same;;
               transactionIndex ← getitem log_entry "transactionIndex";
               assert_ (py_eq transactionIndex (VInt 0));;
               transactionHash ← getitem log_entry "transactionHash";
               expected ← of_result (HexBytes txn_hash);
               assert_ (py_eq transactionHash (VBytes expected)))) as Hrest.
  { intros verdict <-.
    apply (getitem_ret (E := E)) in Hbn, Hn, Hbh, Hh, Hli, Ha.
    unfold assert_contains_log, getitem_seq. simpl.
    rewrite Hbn. simpl. rewrite Hn. simpl. rewrite Hbn'. simpl.
    rewrite Hbh. simpl. rewrite Hh. simpl. rewrite Hbh'. simpl.
    rewrite Hli. simpl. rewrite Hli'. simpl.
    rewrite Ha. reflexivity. }
  split.
  - intros e He. rewrite (Hrest _ He). reflexivity.
  - intros He. rewrite (Hrest _ He). reflexivity.
Qed.

Lemma assert_contains_log_address_check_witness :
  assert_contains_log same_address_ignoring_case bytes_of_hexstr
    (E := Sync.call (Session := unit) (Response := unit))
    [sample_log (VInt 0)] sample_block VNone (VStr "0x1234") = Raise ValueError /\
  assert_contains_log same_address_ignoring_case bytes_of_hexstr
    (E := Sync.call (Session := unit) (Response := unit))
    [sample_log (VInt 0)] sample_block (VStr "0xabce") (VStr "0x1234")
    = Raise AssertionError.
Proof.
  split.
  - refine (proj1 (assert_contains_log_address_check
             same_address_ignoring_case bytes_of_hexstr _
             (sample_log (VInt 0)) sample_block
             (VInt 10) (VBytes [xbe; xef]%byte) (VStr "0xAbCd") VNone
             (VStr "0x1234") _ _ _ _ _ _) ValueError _);
      try reflexivity; eexists; split; reflexivity.
  - refine (proj2 (assert_contains_log_address_check
             same_address_ignoring_case bytes_of_hexstr _
             (sample_log (VInt 0)) sample_block
             (VInt 10) (VBytes [xbe; xef]%byte) (VStr "0xAbCd") (VStr "0xabce")
             (VStr "0x1234") _ _ _ _ _ _) _);
      try reflexivity; eexists; split; reflexivity.
Defined.

Ltac key_missing :=
  right; right; left; eexists; split; [|reflexivity];
  unfold keys_read; rewrite !elem_of_cons; auto 10.

(** X15. How [assert_contains_log] can end: normally, with
    [AssertionError], with [KeyError] on one of the eight keys it reads, or
    with an exception that [is_same_address] or [HexBytes] raised. It never
    raises [IndexError], even on an empty result: the length is checked
    first. *)
Theorem assert_contains_log_outcomes
    (is_same_address : pyval -> pyval -> exn + bool)
    (HexBytes : pyval -> exn + bytes) (E : Type -> Type)
    (result : list (gmap string pyval)) (block : gmap string pyval)
    (emitter txn_hash : pyval) :
  let outcome := assert_contains_log is_same_address HexBytes (E := E)
                   result block emitter txn_hash in
  outcome = Ret tt \/
  outcome = Raise AssertionError \/
  (exists key, key ∈ keys_read /\ outcome = Raise (KeyError key)) \/
  (exists address e,
     is_same_address address emitter = inl e /\ outcome = Raise e) \/
  (exists e, HexBytes txn_hash = inl e /\ outcome = Raise e).
Proof.
  intros outcome. subst outcome.
  destruct result as [|log_entry [|second rest]]; [auto| |auto].
  unfold assert_contains_log, getitem_seq, getitem. simpl.
  destruct (log_entry !! "blockNumber") as [bn|]; simpl; [|key_missing].
  destruct (block !! "number") as [n|]; simpl; [|key_missing].
  destruct (py_eq bn n); simpl; [|auto].
  destruct (log_entry !! "blockHash") as [bh|]; simpl; [|key_missing].
  destruct (block !! "hash") as [h|]; simpl; [|key_missing].
  destruct (py_eq bh h); simpl; [|auto].
  destruct (log_entry !! "logIndex") as [li|]; simpl; [|key_missing].
  destruct (py_eq li (VInt 0)); simpl; [|auto].
  destruct (log_entry !! "address") as [a|]; simpl; [|key_missing].
  destruct (is_same_address a emitter) as [e|same] eqn:Hsame; simpl.
  { right; right; right; left. eauto. }
  destruct same; simpl; [|auto].
  destruct (log_entry !! "transactionIndex") as [ti|]; simpl; [|key_missing].
  destruct (py_eq ti (VInt 0)); simpl; [|auto].
  destruct (log_entry !! "transactionHash") as [th|]; simpl; [|key_missing].
  destruct (HexBytes txn_hash) as [e|expected] eqn:Hhex; simpl.
  { right; right; right; right. eauto. }
  destruct (py_eq th (VBytes expected)); simpl; auto.
Qed.
